(** * analog.analyzer: the log scan of [Analyzer]

    A shallow embedding of [src/analog/analyzer.py] and the properties of
    its scan loop: path monitoring, the age window, error propagation.

    The collaborators that live outside [analyzer.py] ([LogFormat], the
    builtins [int], [float] and [strptime]) are the fields of the class
    [Externals]; every theorem holds for all of them. *)

From Stdlib Require Import ZArith Ascii String List Bool Lia.
From stdpp Require Import base option gmap strings.
Import ListNotations.

Local Open Scope string_scope.
Local Open Scope list_scope.
Local Open Scope Z_scope.

(** ** Exceptions and the error monad *)

(** The exceptions that can leave [analyzer.py].  [Foreign] carries what a
    collaborator constructor ([LogFormat(...)]) raised; the type keeps it
    apart from the errors this module raises itself. *)
Inductive exn (foreign : Type) : Type :=
  | MissingFormatError (msg : string)
  | ValueError
  | OverflowError
  | AttributeError
  | Foreign (e : foreign).
Arguments MissingFormatError {foreign} msg.
Arguments ValueError {foreign}.
Arguments OverflowError {foreign}.
Arguments AttributeError {foreign}.
Arguments Foreign {foreign} e.

(** A computation that returns a value or raises. *)
Inductive result (E A : Type) : Type :=
  | Ok (a : A)
  | Raise (e : E).
Arguments Ok {E A} a.
Arguments Raise {E A} e.

#[global] Instance result_ret {E} : MRet (result E) := fun _ a => Ok a.
#[global] Instance result_bind {E} : MBind (result E) := fun _ _ f m =>
  match m with
  | Ok a => f a
  | Raise e => Raise e
  end.
#[global] Instance result_fmap {E} : FMap (result E) := fun _ _ f m =>
  match m with
  | Ok a => Ok (f a)
  | Raise e => Raise e
  end.

(** The value returned, if any. *)
Definition to_option {E A} (r : result E A) : option A :=
  match r with
  | Ok a => Some a
  | Raise _ => None
  end.

(** A builtin that answers [None] raises [ValueError]. *)
Definition or_ValueError {foreign A} (o : option A) : result (exn foreign) A :=
  match o with
  | Some a => Ok a
  | None => Raise ValueError
  end.

(** What a collaborator raises passes through as it is. *)
Definition propagate {foreign A} (r : result foreign A) : result (exn foreign) A :=
  match r with
  | Ok a => Ok a
  | Raise e => Raise (Foreign e)
  end.

(** Reading an attribute that was never assigned raises [AttributeError]. *)
Definition attr {foreign A} (o : option A) : result (exn foreign) A :=
  match o with
  | Some a => Ok a
  | None => Raise AttributeError
  end.

(** ** [datetime] and [timedelta]

    A naive [datetime] is the number of microseconds since
    0001-01-01T00:00:00 (the proleptic Gregorian calendar has neither leap
    seconds nor time zones, so days are 86400 seconds throughout); the
    type holds the years 1 to 9999.  A [timedelta] is a number of
    microseconds of at most 999999999 days in magnitude. *)
Definition datetime : Type := Z.
Definition timedelta : Type := Z.

Definition usec_per_second : Z := 1000000.
Definition usec_per_minute : Z := 60 * usec_per_second.
Definition usec_per_day : Z := 86400 * usec_per_second.

(** One past [datetime.max]: [date.max.toordinal()] is 3652059. *)
Definition datetime_end : Z := 3652059 * usec_per_day.

Definition datetime_valid (t : Z) : bool := (0 <=? t) && (t <? datetime_end).

Definition timedelta_valid (d : Z) : bool :=
  (-999999999 * usec_per_day <=? d) && (d <? 1000000000 * usec_per_day).

Definition second (t : datetime) : Z := (t / usec_per_second) mod 60.
Definition microsecond (t : datetime) : Z := t mod usec_per_second.

(** [t.replace(second=0, microsecond=0)] *)
Definition replace_second_microsecond_0 (t : datetime) : datetime :=
  t - second t * usec_per_second - microsecond t.

(** [datetime.timedelta(minutes=m)] *)
Definition timedelta_minutes {foreign} (m : Z) : result (exn foreign) timedelta :=
  let d := m * usec_per_minute in
  if timedelta_valid d then Ok d else Raise OverflowError.

(** [t - d] for a datetime [t] and a timedelta [d] *)
Definition datetime_sub {foreign} (t : datetime) (d : timedelta)
  : result (exn foreign) datetime :=
  if datetime_valid (t - d) then Ok (t - d) else Raise OverflowError.

(** ** Records of the collaborators *)

Module LogEntry.
(** Modelled from the spec: [LogEntry] of [analog.formats], the groups of
    one matched line, all of them still strings. *)
Record t : Type := make {
  timestamp : string;
  path : string;
  verb : string;
  status : string;
  request_time : string;
  upstream_response_time : string;
  body_bytes_sent : string
}.
End LogEntry.

(** Modelled from the spec: [LogFormat] of [analog.formats], a pattern and
    a timestamp convention.  [pattern] is the compiled pattern's [search],
    [entry] builds the record of a match. *)
Record LogFormat (Match : Type) : Type := {
  name : string;
  pattern : string -> option Match;
  entry : Match -> LogEntry.t;
  time_format : string
}.
Arguments name {Match} _.
Arguments pattern {Match} _ _.
Arguments entry {Match} _ _.
Arguments time_format {Match} _.

Module Report.
(** The keyword arguments of one [report.add(...)] call. *)
Record call (float : Type) : Type := make_call {
  path : string;
  verb : string;
  status : Z;
  time : float;
  upstream_time : float;
  body_bytes : Z
}.
Arguments make_call {float}.
Arguments path {float} _.
Arguments verb {float} _.
Arguments status {float} _.
Arguments time {float} _.
Arguments upstream_time {float} _.
Arguments body_bytes {float} _.

(** Modelled from the spec: [Report] of [analog.report], seen from the
    analyzer: the [add] calls it received, oldest first, and its settable
    [execution_time]. *)
Record t (float : Type) : Type := make {
  calls : list (call float);
  execution_time : option float
}.
Arguments make {float}.
Arguments calls {float} _.
Arguments execution_time {float} _.

(** [Report()] *)
Definition new {float} : t float := make [] None.

(** [report.add(...)] *)
Definition add {float} (report : t float) (c : call float) : t float :=
  make (calls report ++ [c]) (execution_time report).

(** [report.execution_time = d] *)
Definition set_execution_time {float} (report : t float) (d : float) : t float :=
  make (calls report) (Some d).
End Report.

(** What [analyzer.py] uses and does not define. *)
Class Externals : Type := {
  float : Type;
  float_sub : float -> float -> float;
  py_float : string -> option float;
  py_int : string -> option Z;
  strptime : string -> string -> option datetime;
  re_escape : string -> string;
  Match : Type;
  foreign : Type;
  all_formats : gmap string (LogFormat Match);
  LogFormat_init : string -> string -> result foreign (LogFormat Match)
}.

(** ** The analyzer *)

Section Analyzer.
Context `{Externals}.

Local Abbreviation exc := (exn foreign).
Local Abbreviation report_t := (Report.t float).

(** The attributes of an [Analyzer] object.  [_log] is the handle on the
    log file: the lines that have not been read yet.  [_now] and
    [_min_time] exist only once [__call__] has assigned them. *)
Record Analyzer : Type := {
  _log : list string;
  _format : LogFormat Match;
  _pathconf : list string;
  _max_age : Z;
  execution_time : option float;
  _now : option datetime;
  _min_time : option datetime
}.

Definition MAX_AGE : Z := 10.

(** [not format], for a format that is a string or absent ([None]) *)
Definition not_ (format : option string) : bool :=
  match format with
  | None => true
  | Some "" => true
  | Some _ => false
  end.

(** [Analyzer.__init__].  Past the guard, [format] is a string. *)
Definition __init__ (log : list string) (format : option string)
    (paths : list string) (max_age : Z) : result exc Analyzer :=
  if not_ format then
    Raise (MissingFormatError
             "Require log format. Specify format name or regex pattern.")
  else
    let format := default "" format in
    let formats := all_formats in
    _format' ← match formats !! format with
               | Some f => Ok f
               | None => propagate (LogFormat_init "custom" (re_escape format))
               end;
    Ok {| _log := log;
          _format := _format';
          _pathconf := paths;
          _max_age := max_age;
          execution_time := None;
          _now := None;
          _min_time := None |}.

(** [Analyzer._monitor_path] *)
Definition _monitor_path (self : Analyzer) (path : string) : option string :=
  match _pathconf self with
  | [] => Some path
  | _ => find (fun monitored => String.prefix monitored path) (_pathconf self)
  end.

(** [Analyzer._timestamp] *)
Definition _timestamp (self : Analyzer) (time_str : string) : result exc datetime :=
  or_ValueError (strptime time_str (time_format (_format self))).

(** How one pass through the body of the [for] loop ends. *)
Inductive ctl : Type := Continue | Break.

(** Lines 118-130 of the loop body: path monitoring, the coercions and
    the [report.add] call.  The arguments of [add] are evaluated left to
    right before the call. *)
Definition collect (self : Analyzer) (log_entry : LogEntry.t)
    (report : report_t) : result exc (ctl * report_t) :=
  match _monitor_path self (LogEntry.path log_entry) with
  | None => Ok (Continue, report)
  | Some path =>
      status ← or_ValueError (py_int (LogEntry.status log_entry));
      time ← or_ValueError (py_float (LogEntry.request_time log_entry));
      upstream_time ←
        or_ValueError (py_float (LogEntry.upstream_response_time log_entry));
      body_bytes ← or_ValueError (py_int (LogEntry.body_bytes_sent log_entry));
      Ok (Continue,
          Report.add report
            (Report.make_call path (LogEntry.verb log_entry) status time
               upstream_time body_bytes))
  end.

(** The body of [for line in self._log], lines 104-130. *)
Definition body (self : Analyzer) (line : string) (report : report_t)
    : result exc (ctl * report_t) :=
  match pattern (_format self) line with
  | None => Ok (Continue, report)
  | Some match_ =>
      let log_entry := entry (_format self) match_ in
      timestamp ← _timestamp self (LogEntry.timestamp log_entry);
      min_time ← attr (_min_time self);
      if timestamp <? min_time then Ok (Continue, report)
      else
        now ← attr (_now self);
        if timestamp >? now then Ok (Break, report)
        else collect self log_entry report
  end.

(** How the [for] loop was left. *)
Inductive exit : Type :=
  | Exhausted
  | Broke
  | Raised (e : exc).

(** [for line in self._log: ...]: the exit, the lines left unread and the
    report.  An exception leaves the report as the earlier passes made
    it. *)
Fixpoint for_lines (self : Analyzer) (lines : list string) (report : report_t)
    : exit * list string * report_t :=
  match lines with
  | [] => (Exhausted, [], report)
  | line :: rest =>
      match body self line report with
      | Ok (Continue, report') => for_lines self rest report'
      | Ok (Break, report') => (Broke, rest, report')
      | Raise e => (Raised e, rest, report)
      end
  end.

(** What an invocation leaves behind: the analyzer object, the report
    object if [Report()] was reached, and the value returned or the
    exception raised. *)
Record run : Type := {
  this : Analyzer;
  aggregator : option report_t;
  returned : result exc report_t
}.

Definition set_now (self : Analyzer) (t : datetime) : Analyzer :=
  {| _log := _log self; _format := _format self; _pathconf := _pathconf self;
     _max_age := _max_age self; execution_time := execution_time self;
     _now := Some t; _min_time := _min_time self |}.

Definition set_min_time (self : Analyzer) (t : datetime) : Analyzer :=
  {| _log := _log self; _format := _format self; _pathconf := _pathconf self;
     _max_age := _max_age self; execution_time := execution_time self;
     _now := _now self; _min_time := Some t |}.

Definition set_log (self : Analyzer) (lines : list string) : Analyzer :=
  {| _log := lines; _format := _format self; _pathconf := _pathconf self;
     _max_age := _max_age self; execution_time := execution_time self;
     _now := _now self; _min_time := _min_time self |}.

(** Lines 132-136: how [__call__] ends once the loop is left.  An
    exception of the loop passes through; otherwise the duration is
    stored and the report returned. *)
Definition finish (self : Analyzer) (started finished : float)
    (scan : exit * list string * report_t) : run :=
  match scan with
  | (Raised e, unread, report) =>
      {| this := set_log self unread;
         aggregator := Some report;
         returned := Raise e |}
  | (_, unread, report) =>
      let report :=
        Report.set_execution_time report (float_sub finished started) in
      {| this := set_log self unread;
         aggregator := Some report;
         returned := Ok report |}
  end.

(** [Analyzer.__call__].  [wall] is what [datetime.datetime.now()]
    answers, [started] and [finished] what the two [time.clock()] calls
    answer. *)
Definition __call__ (self : Analyzer) (wall : datetime) (started finished : float)
    : run :=
  let self := set_now self wall in
  let self := set_now self (replace_second_microsecond_0 wall) in
  match
    (now ← attr (_now self);
     d ← timedelta_minutes (_max_age self);
     datetime_sub now d)
  with
  | Raise e => {| this := self; aggregator := None; returned := Raise e |}
  | Ok min_time =>
      let self := set_min_time self min_time in
      let report := Report.new in
      finish self started finished (for_lines self (_log self) report)
  end.

(** [analyze]: the convenience wrapper; [path_stats] is not used. *)
Definition analyze (log : list string) (format : option string)
    (paths : list string) (max_age : Z) (path_stats : bool)
    (wall : datetime) (started finished : float)
    : result exc run :=
  analyzer ← __init__ log format paths max_age;
  Ok (__call__ analyzer wall started finished).

(** ** Vocabulary of the statements *)

(** The analyzer as lines 93-95 leave it when the clock reads [wall]. *)
Definition windowed (self : Analyzer) (wall : datetime) : Analyzer :=
  let now := replace_second_microsecond_0 wall in
  set_min_time (set_now self now) (now - _max_age self * usec_per_minute).

(** [line] matches the format of [self] and [e] is its record. *)
Definition matched (self : Analyzer) (line : string) (e : LogEntry.t) : Prop :=
  exists m, pattern (_format self) line = Some m /\ entry (_format self) m = e.

(** The timestamp of [e] parses, to [ts]. *)
Definition stamped (self : Analyzer) (e : LogEntry.t) (ts : datetime) : Prop :=
  strptime (LogEntry.timestamp e) (time_format (_format self)) = Some ts.

(** One of the four numeric fields of [e] does not parse. *)
Definition malformed_number (e : LogEntry.t) : Prop :=
  py_int (LogEntry.status e) = None
  \/ py_float (LogEntry.request_time e) = None
  \/ py_float (LogEntry.upstream_response_time e) = None
  \/ py_int (LogEntry.body_bytes_sent e) = None.

(** [monitored] is the first entry of [pathconf] that [path] starts with. *)
Definition first_match (pathconf : list string) (path monitored : string) : Prop :=
  exists before after,
    pathconf = before ++ monitored :: after
    /\ String.prefix monitored path = true
    /\ Forall (fun p => String.prefix p path = false) before.

(** [ts] lies in the age window of [self], both ends included. *)
Definition in_window (self : Analyzer) (ts : datetime) : Prop :=
  exists now min_time,
    _now self = Some now /\ _min_time self = Some min_time
    /\ min_time <= ts <= now.

(** The scan passes over [line]: the pass ends in [continue] with the
    report untouched; after lines [pre] that were scanned to their end,
    the scan goes on with [rest] and the report [pre] made. *)
Definition skipped (self : Analyzer) (line : string) : Prop :=
  (forall report, body self line report = Ok (Continue, report))
  /\ (forall pre rest report report',
        for_lines self pre report = (Exhausted, [], report') ->
        for_lines self (pre ++ line :: rest) report
        = for_lines self rest report').

(** The scan stops at [line]: the pass ends in [break] with the report
    untouched; after lines [pre] that were scanned to their end, all of
    [rest] is left unread and the report is the one [pre] made. *)
Definition stops_at (self : Analyzer) (line : string) : Prop :=
  (forall report, body self line report = Ok (Break, report))
  /\ (forall pre rest report report',
        for_lines self pre report = (Exhausted, [], report') ->
        for_lines self (pre ++ line :: rest) report = (Broke, rest, report')).

(** The scan aborts at [line] with the exception [e]: nothing of [rest]
    is read and the report is the one the earlier lines made. *)
Definition aborts_at (self : Analyzer) (line : string) (e : exc) : Prop :=
  (forall report, body self line report = Raise e)
  /\ (forall pre rest report report',
        for_lines self pre report = (Exhausted, [], report') ->
        for_lines self (pre ++ line :: rest) report = (Raised e, rest, report')).

(** The [add] call that [line] earns on its own, if any: the line
    matches, its timestamp parses into the window, its path is monitored
    and its four numbers parse. *)
Definition call_of (self : Analyzer) (line : string)
    : option (Report.call float) :=
  match_ ← pattern (_format self) line;
  let log_entry := entry (_format self) match_ in
  timestamp ← strptime (LogEntry.timestamp log_entry) (time_format (_format self));
  min_time ← _min_time self;
  now ← _now self;
  if (min_time <=? timestamp) && (timestamp <=? now) then
    path ← _monitor_path self (LogEntry.path log_entry);
    status ← py_int (LogEntry.status log_entry);
    time ← py_float (LogEntry.request_time log_entry);
    upstream_time ← py_float (LogEntry.upstream_response_time log_entry);
    body_bytes ← py_int (LogEntry.body_bytes_sent log_entry);
    Some (Report.make_call path (LogEntry.verb log_entry) status time
            upstream_time body_bytes)
  else None.

End Analyzer.

(** ** [setup.py]: the requirements of an installation *)

Module Setup.

(** [requirements] as lines 40-46 of [setup.py] leave it, for the
    interpreter version [sys.version_info[0]], [sys.version_info[1]]. *)
Definition requirements (PYMAJ PYMIN : Z) : list string :=
  let requirements := ["tabulate"] in
  let requirements :=
    if (PYMAJ <? 3) || ((PYMAJ =? 3) && (PYMIN <? 3))
    then requirements ++ ["mock"] else requirements in
  let requirements :=
    if (PYMAJ <? 3) || ((PYMAJ =? 3) && (PYMIN <? 4))
    then requirements ++ ["numpy"] else requirements in
  requirements.

End Setup.

(** ** A concrete set of collaborators

    A line format of seven fields separated by single spaces,
    [HH:MM:SS verb path status request_time upstream_time bytes].  The
    time of day is read on 1900-01-01, the date [strptime] gives a
    timestamp whose format names none.  Floats are held in thousandths. *)
Module Sample.

(** [s.split(sep)] *)
Fixpoint split (sep : ascii) (s : string) : list string :=
  match s with
  | EmptyString => [EmptyString]
  | String c s' =>
      if Ascii.eqb c sep then EmptyString :: split sep s'
      else match split sep s' with
           | w :: ws => String c w :: ws
           | [] => [String c EmptyString]
           end
  end.

Definition digit (c : ascii) : option Z :=
  let n := Z.of_nat (nat_of_ascii c) - 48 in
  if (0 <=? n) && (n <=? 9) then Some n else None.

Fixpoint number_from (acc : Z) (s : string) : option Z :=
  match s with
  | EmptyString => Some acc
  | String c s' =>
      match digit c with
      | Some d => number_from (10 * acc + d) s'
      | None => None
      end
  end.

(** A non-empty run of decimal digits. *)
Definition number (s : string) : option Z :=
  match s with
  | EmptyString => None
  | _ => number_from 0 s
  end.

(** [a] or [a.bcd], in thousandths. *)
Definition thousandths (s : string) : option Z :=
  match split "."%char s with
  | [a] => a' ← number a; Some (1000 * a')
  | [a; b] =>
      if (String.length b =? 3)%nat
      then a' ← number a; b' ← number b; Some (1000 * a' + b')
      else None
  | _ => None
  end.

(** Midnight of 1900-01-01, whose ordinal is 693596. *)
Definition midnight_1900 : datetime := 693595 * usec_per_day.

(** [HH:MM:SS] on 1900-01-01; the format argument is not consulted. *)
Definition clock_time (time_str format : string) : option datetime :=
  match split ":"%char time_str with
  | [h; m; s] =>
      if ((String.length h =? 2) && (String.length m =? 2)
          && (String.length s =? 2))%nat
      then
        h' ← number h; m' ← number m; s' ← number s;
        if (h' <? 24) && (m' <? 60) && (s' <? 60)
        then Some (midnight_1900 + ((h' * 60 + m') * 60 + s') * usec_per_second)
        else None
      else None
  | _ => None
  end.

(** A line matches when it has exactly seven fields. *)
Definition seven_fields (line : string) : option (list string) :=
  let ws := split " "%char line in
  if (List.length ws =? 7)%nat then Some ws else None.

Definition entry_of (ws : list string) : LogEntry.t :=
  match ws with
  | [timestamp; verb; path; status; request_time; upstream; bytes] =>
      LogEntry.make timestamp path verb status request_time upstream bytes
  | _ => LogEntry.make "" "" "" "" "" "" ""
  end.

Definition format : LogFormat (list string) :=
  {| name := "sample";
     pattern := seven_fields;
     entry := entry_of;
     time_format := "%H:%M:%S" |}.

(** A custom format matches the lines that contain the literal and
    names no groups. *)
Definition custom (name pattern_str : string)
    : result Empty_set (LogFormat (list string)) :=
  Ok {| name := name;
        pattern := fun line =>
          match String.index 0 pattern_str line with
          | Some _ => Some []
          | None => None
          end;
        entry := entry_of;
        time_format := "%H:%M:%S" |}.

Definition externals : Externals :=
  {| float := Z;
     float_sub := Z.sub;
     py_float := thousandths;
     py_int := number;
     strptime := clock_time;
     re_escape := fun s => s;
     Match := list string;
     foreign := Empty_set;
     all_formats := {[ "sample" := format ]};
     LogFormat_init := custom |}.

(** An analyzer object over the sample format, as [__init__] builds it. *)
Definition analyzer (log paths : list string) (max_age : Z) : @Analyzer externals :=
  @Build_Analyzer externals log format paths max_age None None None.

(** 14:13:27.5 on 1900-01-01 *)
Definition wall : datetime :=
  midnight_1900 + ((14 * 60 + 13) * 60 + 27) * usec_per_second + 500000.

(** The same analyzer in the middle of a scan started at [wall]: [_now]
    is 14:13:00 and [_min_time] is [max_age] minutes before. *)
Definition scanning (log paths : list string) (max_age : Z) : @Analyzer externals :=
  windowed (analyzer log paths max_age) wall.

(** [HH:MM:SS] as a datetime of 1900-01-01 *)
Definition at_time (h m s : Z) : datetime :=
  midnight_1900 + ((h * 60 + m) * 60 + s) * usec_per_second.

End Sample.

(** ** Properties of the scan *)

Section Properties.
Context `{Externals}.

Local Abbreviation exc := (exn foreign).
Local Abbreviation report_t := (Report.t float).

Implicit Types (self : Analyzer) (line path : string) (e : LogEntry.t)
  (report : report_t) (ts now min_time : datetime).

Ltac reduce_bind := cbn [mbind result_bind mret result_ret or_ValueError attr].

(** *** The loop *)

Lemma for_lines_app self (pre rest : list string) report :
  for_lines self (pre ++ rest) report =
    match for_lines self pre report with
    | (Exhausted, _, report') => for_lines self rest report'
    | (x, unread, report') => (x, unread ++ rest, report')
    end.
Proof.
  revert report. induction pre as [|line pre IH]; intros report; simpl.
  - reflexivity.
  - destruct (body self line report) as [[[|] report']|e]; auto.
Qed.

Lemma for_lines_exhausted self (pre rest : list string) report report' :
  for_lines self pre report = (Exhausted, [], report') ->
  for_lines self (pre ++ rest) report = for_lines self rest report'.
Proof. intros Hpre. rewrite for_lines_app, Hpre. reflexivity. Qed.

(** A pass that ends the same way whatever the report decides how the
    scan leaves the line, once the lines before it are exhausted. *)
Ltac after_exhausted Hbody :=
  let Hpre := fresh "Hpre" in
  intros ? ? ? ? Hpre;
  rewrite (for_lines_exhausted _ _ _ _ _ Hpre); simpl; rewrite Hbody;
  reflexivity.

Lemma continue_skipped self line :
  (forall report, body self line report = Ok (Continue, report)) ->
  skipped self line.
Proof.
  intros Hbody. split; [exact Hbody|]. after_exhausted Hbody.
Qed.

Lemma break_stops_at self line :
  (forall report, body self line report = Ok (Break, report)) ->
  stops_at self line.
Proof.
  intros Hbody. split; [exact Hbody|]. after_exhausted Hbody.
Qed.

Lemma raise_aborts_at self line (x : exc) :
  (forall report, body self line report = Raise x) ->
  aborts_at self line x.
Proof.
  intros Hbody. split; [exact Hbody|]. after_exhausted Hbody.
Qed.

(** The pass over a matched line, past the pattern. *)
Lemma body_matched self line e report :
  matched self line e ->
  body self line report =
    (timestamp ← _timestamp self (LogEntry.timestamp e);
     min_time ← attr (_min_time self);
     if timestamp <? min_time then Ok (Continue, report)
     else
       now ← attr (_now self);
       if timestamp >? now then Ok (Break, report)
       else collect self e report).
Proof. intros (m & Hm & <-). unfold body. rewrite Hm. reflexivity. Qed.

Lemma body_in_window self line e ts report :
  matched self line e -> stamped self e ts -> in_window self ts ->
  body self line report = collect self e report.
Proof.
  intros Hm Hts (now & min_time & Hnow & Hmin & Hlo & Hhi).
  rewrite (body_matched _ _ _ _ Hm). unfold _timestamp.
  unfold stamped in Hts. rewrite Hts, Hmin, Hnow. reduce_bind.
  destruct (Z.ltb_spec ts min_time); [lia|].
  destruct (Z.gtb_spec ts now); [lia|]. reflexivity.
Qed.

(** [collect] never leaves the loop, and adds at most the one call whose
    path is what [_monitor_path] answered. *)
Lemma collect_inv self e report (c : ctl) report' :
  collect self e report = Ok (c, report') ->
  c = Continue
  /\ ((_monitor_path self (LogEntry.path e) = None /\ report' = report)
      \/ exists monitored status time upstream_time body_bytes,
           _monitor_path self (LogEntry.path e) = Some monitored
           /\ report' = Report.add report
                          (Report.make_call monitored (LogEntry.verb e) status
                             time upstream_time body_bytes)).
Proof.
  unfold collect.
  destruct (_monitor_path self (LogEntry.path e)) as [monitored|].
  - destruct (py_int (LogEntry.status e)) as [status|]; reduce_bind; [|discriminate].
    destruct (py_float (LogEntry.request_time e)) as [time|]; reduce_bind;
      [|discriminate].
    destruct (py_float (LogEntry.upstream_response_time e)) as [up|]; reduce_bind;
      [|discriminate].
    destruct (py_int (LogEntry.body_bytes_sent e)) as [bytes|]; reduce_bind;
      [|discriminate].
    intros [= <- <-]. split; [reflexivity|]. right. eauto 10.
  - intros [= <- <-]. auto.
Qed.

(** A pass either leaves the report as it was or adds one call, made
    from the record of the line. *)
Lemma body_inv self line report (c : ctl) report' :
  body self line report = Ok (c, report') ->
  report' = report
  \/ exists e call,
       matched self line e
       /\ _monitor_path self (LogEntry.path e) = Some (Report.path call)
       /\ Report.verb call = LogEntry.verb e
       /\ report' = Report.add report call.
Proof.
  unfold body. destruct (pattern (_format self) line) as [m|] eqn:Hm.
  - destruct (_timestamp self _) as [ts|]; reduce_bind; [|discriminate].
    destruct (_min_time self) as [min_time|]; reduce_bind; [|discriminate].
    destruct (ts <? min_time); [intros [= <- <-]; auto|].
    destruct (_now self) as [now|]; reduce_bind; [|discriminate].
    destruct (ts >? now); [intros [= <- <-]; auto|].
    intros Hc. apply collect_inv in Hc as [_ [[_ ->]|Hadd]]; [auto|].
    destruct Hadd as (monitored & st & t & u & b & Hmon & ->).
    right.
    exists (entry (_format self) m),
      (Report.make_call monitored (LogEntry.verb (entry (_format self) m))
         st t u b).
    split; [exists m; auto|]. simpl. auto.
  - intros [= <- <-]. auto.
Qed.

(** The calls a report holds after a scan are those it held before and
    calls made from matched lines of the source; none is taken back. *)
Lemma for_lines_calls self (lines : list string) report :
  exists added,
    Report.calls (for_lines self lines report).2 = Report.calls report ++ added
    /\ Forall (fun call => exists line e,
                 In line lines /\ matched self line e
                 /\ _monitor_path self (LogEntry.path e) = Some (Report.path call)
                 /\ Report.verb call = LogEntry.verb e) added.
Proof.
  revert report. induction lines as [|line rest IH]; intros report; simpl.
  - exists []. rewrite app_nil_r. auto.
  - destruct (body self line report) as [[c report']|x] eqn:Hbody.
    + assert (exists new,
                 Report.calls report' = Report.calls report ++ new
                 /\ Forall (fun call => exists e,
                              matched self line e
                              /\ _monitor_path self (LogEntry.path e)
                                 = Some (Report.path call)
                              /\ Report.verb call = LogEntry.verb e) new)
        as (new & Hnew & Hfrom).
      { apply body_inv in Hbody as [->|(e & call & Hm & Hp & Hv & ->)].
        - exists []. rewrite app_nil_r. auto.
        - exists [call]. split; [reflexivity|]. repeat constructor. eauto. }
      destruct c.
      * destruct (IH report') as (added & Hadded & Hall).
        exists (new ++ added). rewrite Hadded, Hnew, app_assoc.
        split; [reflexivity|]. apply Forall_app. split.
        -- eapply Forall_impl; [exact Hfrom|].
           intros call (e & ?). exists line, e. simpl. tauto.
        -- eapply Forall_impl; [exact Hall|].
           intros call (l & e & ? & ?). exists l, e. simpl. tauto.
      * exists new. simpl. split; [exact Hnew|].
        eapply Forall_impl; [exact Hfrom|].
        intros call (e & ?). exists line, e. simpl. tauto.
    + exists []. simpl. rewrite app_nil_r. auto.
Qed.

(** *** Path monitoring *)

Lemma find_first_match (pathconf : list string) path (monitored : string) :
  find (fun p => String.prefix p path) pathconf = Some monitored
  <-> first_match pathconf path monitored.
Proof.
  unfold first_match. induction pathconf as [|p pathconf IH]; simpl.
  - split; [discriminate|]. intros ([|? ?] & ? & ? & _); discriminate.
  - destruct (String.prefix p path) eqn:Hp.
    + split.
      * intros [= <-]. exists [], pathconf. auto.
      * intros ([|q before] & after & Heq & Hm & Hnone).
        -- injection Heq as -> _. reflexivity.
        -- injection Heq as <- _. inversion Hnone; congruence.
    + rewrite IH. split.
      * intros (before & after & -> & Hm & Hnone).
        exists (p :: before), after. auto.
      * intros ([|q before] & after & Heq & Hm & Hnone).
        -- injection Heq as -> _. congruence.
        -- injection Heq as _ ->. inversion Hnone. eauto.
Qed.

Lemma find_no_match (pathconf : list string) path :
  find (fun p => String.prefix p path) pathconf = None
  <-> Forall (fun p => String.prefix p path = false) pathconf.
Proof.
  induction pathconf as [|p pathconf IH]; simpl.
  - split; auto.
  - destruct (String.prefix p path) eqn:Hp.
    + split; [discriminate|]. inversion 1; congruence.
    + rewrite IH. split; [auto|]. inversion 1; auto.
Qed.

Lemma monitor_path_configured self path :
  _pathconf self <> [] ->
  _monitor_path self path
  = find (fun p => String.prefix p path) (_pathconf self).
Proof. unfold _monitor_path. destruct (_pathconf self); congruence. Qed.

Lemma collect_unmonitored self e report :
  _monitor_path self (LogEntry.path e) = None ->
  collect self e report = Ok (Continue, report).
Proof. intros Hnone. unfold collect. rewrite Hnone. reflexivity. Qed.

(** C1: with a non-empty list of monitored paths, path resolution
    answers the first configured prefix, in list order, that the path
    starts with, whatever later entries match too, and answers [None]
    exactly when the path starts with none of them.  A matched record
    whose path resolves to [None] adds no call: the scan goes on as if
    the line were not there or ends at the line with the report
    untouched, and when the timestamp is in the window it is the path
    that has the scan pass over the line. *)
Theorem monitor_path_first_prefix self path :
  _pathconf self <> [] ->
  (forall monitored,
      _monitor_path self path = Some monitored
      <-> first_match (_pathconf self) path monitored)
  /\ (_monitor_path self path = None
      <-> Forall (fun p => String.prefix p path = false) (_pathconf self))
  /\ (_monitor_path self path = None ->
      forall line e,
        matched self line e -> LogEntry.path e = path ->
        (forall rest report,
            for_lines self (line :: rest) report = for_lines self rest report
            \/ exists x, for_lines self (line :: rest) report = (x, rest, report))
        /\ (forall ts,
              stamped self e ts -> in_window self ts -> skipped self line)).
Proof.
  intros Hconf. rewrite (monitor_path_configured _ _ Hconf).
  split; [intros monitored; apply find_first_match|].
  split; [apply find_no_match|].
  intros Hnone line e Hm <-.
  rewrite <- (monitor_path_configured _ _ Hconf) in Hnone. split.
  - intros rest report. simpl.
    destruct (body self line report) as [[c report']|x] eqn:Hbody.
    + assert (report' = report) as ->.
      { apply body_inv in Hbody as [->|(e' & call & Hm' & Hp & _)];
          [reflexivity|].
        destruct Hm as (m & Hpat & <-), Hm' as (m' & Hpat' & <-).
        congruence. }
      destruct c; [left; reflexivity|right; eauto].
    + right. eauto.
  - intros ts Hts Hwin. apply continue_skipped. intros report.
    rewrite (body_in_window _ _ _ _ _ Hm Hts Hwin).
    apply collect_unmonitored, Hnone.
Qed.

(** C9: with an empty list of monitored paths, path resolution is the
    identity: every path resolves to itself, none is unmonitored, and a
    record that reaches the aggregator does so under its full path. *)
Theorem monitor_path_identity self :
  _pathconf self = [] ->
  (forall path, _monitor_path self path = Some path)
  /\ (forall e report (c : ctl) report',
        collect self e report = Ok (c, report') ->
        exists call,
          report' = Report.add report call
          /\ Report.path call = LogEntry.path e).
Proof.
  intros Hconf.
  assert (forall path, _monitor_path self path = Some path) as Hid.
  { intros path. unfold _monitor_path. rewrite Hconf. reflexivity. }
  split; [exact Hid|].
  intros e report c report' Hc.
  apply collect_inv in Hc as [_ [[Hnone _]|Hadd]].
  - rewrite Hid in Hnone. discriminate.
  - destruct Hadd as (monitored & st & t & u & b & Hmon & ->).
    rewrite Hid in Hmon. injection Hmon as <-. eexists. split; reflexivity.
Qed.

(** *** The pattern and the age window *)

(** C6: a line that the pattern of the format does not match is passed
    over in silence: the pass raises nothing and makes no [add] call,
    and the scan goes on with the next line. *)
Theorem unmatched_line_skipped self line :
  pattern (_format self) line = None -> skipped self line.
Proof.
  intros Hnone. apply continue_skipped. intros report.
  unfold body. rewrite Hnone. reflexivity.
Qed.

(** C3: a matched record whose timestamp parses to a time strictly
    before [_min_time] is left out, with no [add] call, and the scan
    goes on with the next line. *)
Theorem too_old_record_skipped self line e ts min_time :
  matched self line e -> stamped self e ts ->
  _min_time self = Some min_time -> ts < min_time ->
  skipped self line.
Proof.
  intros Hm Hts Hmin Hlt. apply continue_skipped. intros report.
  rewrite (body_matched _ _ _ _ Hm). unfold _timestamp.
  unfold stamped in Hts. rewrite Hts, Hmin. reduce_bind.
  destruct (Z.ltb_spec ts min_time); [reflexivity|lia].
Qed.

(** C2, amended: a matched record whose timestamp parses to a time
    strictly after [_now], and not before [_min_time], stops the scan:
    no later line is read and none adds a call. *)
Theorem future_record_stops self line e ts now min_time :
  matched self line e -> stamped self e ts ->
  _now self = Some now -> _min_time self = Some min_time ->
  min_time <= ts -> now < ts ->
  stops_at self line.
Proof.
  intros Hm Hts Hnow Hmin Hlo Hgt. apply break_stops_at. intros report.
  rewrite (body_matched _ _ _ _ Hm). unfold _timestamp.
  unfold stamped in Hts. rewrite Hts, Hmin, Hnow. reduce_bind.
  destruct (Z.ltb_spec ts min_time); [lia|].
  destruct (Z.gtb_spec ts now); [reflexivity|lia].
Qed.

(** C4, amended: a matched record whose timestamp [ts] parses and has
    [_min_time <= ts <= _now], either end included, goes on to path
    monitoring: the pass over its line is [collect], and the scan
    neither passes over the line as too old nor stops at it. *)
Theorem window_inclusive self line e ts :
  matched self line e -> stamped self e ts -> in_window self ts ->
  (forall report, body self line report = collect self e report)
  /\ (forall rest report,
        for_lines self (line :: rest) report =
          match collect self e report with
          | Ok (_, report') => for_lines self rest report'
          | Raise x => (Raised x, rest, report)
          end).
Proof.
  intros Hm Hts Hwin.
  assert (forall report, body self line report = collect self e report)
    as Hbody by (intros; eapply body_in_window; eauto).
  split; [exact Hbody|]. intros rest report. simpl. rewrite Hbody.
  destruct (collect self e report) as [[c report']|x] eqn:Hc; [|reflexivity].
  apply collect_inv in Hc as [-> _]. reflexivity.
Qed.

(** *** Malformed fields *)

Lemma collect_malformed self e (monitored : string) report :
  _monitor_path self (LogEntry.path e) = Some monitored ->
  malformed_number e ->
  collect self e report = Raise ValueError.
Proof.
  intros Hmon Hbad. unfold collect. rewrite Hmon.
  unfold malformed_number in Hbad.
  destruct (py_int (LogEntry.status e)); reduce_bind; [|reflexivity].
  destruct (py_float (LogEntry.request_time e)); reduce_bind; [|reflexivity].
  destruct (py_float (LogEntry.upstream_response_time e)); reduce_bind;
    [|reflexivity].
  destruct (py_int (LogEntry.body_bytes_sent e)); reduce_bind; [|reflexivity].
  destruct Hbad as [?|[?|[?|?]]]; discriminate.
Qed.

(** Nothing a scan has added is taken back. *)
Lemma for_lines_keeps_calls self (lines : list string) report :
  exists added,
    Report.calls (for_lines self lines report).2 = Report.calls report ++ added.
Proof.
  destruct (for_lines_calls self lines report) as (added & Hadded & _).
  eauto.
Qed.

(** C7: a matched line whose timestamp does not parse, or whose
    timestamp is in the window and whose path is monitored while one of
    status, request time, upstream time and body size does not parse,
    aborts the scan with the [ValueError]: no later line is read, the
    report keeps every call the earlier lines made, and [__call__] ends
    by raising the error instead of returning the report. *)
Theorem malformed_line_aborts self line e :
  matched self line e ->
  strptime (LogEntry.timestamp e) (time_format (_format self)) = None
  \/ (exists ts monitored,
        stamped self e ts /\ in_window self ts
        /\ _monitor_path self (LogEntry.path e) = Some monitored
        /\ malformed_number e) ->
  aborts_at self line ValueError
  /\ (forall pre rest report report',
        for_lines self pre report = (Exhausted, [], report') ->
        (exists added,
            Report.calls (for_lines self (pre ++ line :: rest) report).2
            = Report.calls report ++ added
            /\ Report.calls report' = Report.calls report ++ added)
        /\ (forall started finished,
              finish self started finished
                (for_lines self (pre ++ line :: rest) report)
              = {| this := set_log self rest;
                   aggregator := Some report';
                   returned := Raise ValueError |})).
Proof.
  intros Hm Hbad.
  assert (aborts_at self line ValueError) as Habort.
  { apply raise_aborts_at. intros report.
    destruct Hbad as [Hts|(ts & monitored & Hts & Hwin & Hmon & Hnum)].
    - rewrite (body_matched _ _ _ _ Hm). unfold _timestamp. rewrite Hts.
      reflexivity.
    - rewrite (body_in_window _ _ _ _ _ Hm Hts Hwin).
      eapply collect_malformed; eauto. }
  split; [exact Habort|].
  intros pre rest report report' Hpre.
  destruct (for_lines_keeps_calls self pre report) as (added & Hadded).
  rewrite (proj2 Habort _ rest _ _ Hpre).
  split; [|reflexivity].
  exists added. rewrite Hpre in Hadded. simpl in *. auto.
Qed.

(** *** The window of an invocation *)

Lemma replace_floor (t : datetime) :
  replace_second_microsecond_0 t = usec_per_minute * (t / usec_per_minute).
Proof.
  unfold replace_second_microsecond_0, second, microsecond, usec_per_minute,
    usec_per_second.
  replace (60 * 1000000) with (1000000 * 60) by lia.
  rewrite <- Z.div_div by lia.
  pose proof (Z.div_mod t 1000000 ltac:(lia)).
  pose proof (Z.div_mod (t / 1000000) 60 ltac:(lia)).
  lia.
Qed.

Lemma replace_second (t : datetime) : second (replace_second_microsecond_0 t) = 0.
Proof.
  rewrite replace_floor. unfold second, usec_per_minute, usec_per_second.
  replace (60 * 1000000 * (t / (60 * 1000000)))
    with (t / (60 * 1000000) * 60 * 1000000) by lia.
  rewrite Z.div_mul by lia. apply Z.mod_mul. lia.
Qed.

Lemma replace_microsecond (t : datetime) :
  microsecond (replace_second_microsecond_0 t) = 0.
Proof.
  rewrite replace_floor. unfold microsecond, usec_per_minute, usec_per_second.
  replace (60 * 1000000 * (t / (60 * 1000000)))
    with (t / (60 * 1000000) * 60 * 1000000) by lia.
  apply Z.mod_mul. lia.
Qed.

Lemma replace_same_minute (t : datetime) :
  replace_second_microsecond_0 t <= t
  < replace_second_microsecond_0 t + usec_per_minute.
Proof.
  rewrite replace_floor. unfold usec_per_minute, usec_per_second.
  pose proof (Z.div_mod t (60 * 1000000) ltac:(lia)).
  pose proof (Z.mod_pos_bound t (60 * 1000000) ltac:(lia)).
  lia.
Qed.

(** Between two datetimes lies a timedelta. *)
Lemma timedelta_between (t d : Z) :
  datetime_valid t = true -> datetime_valid (t - d) = true ->
  timedelta_valid d = true.
Proof.
  unfold datetime_valid, timedelta_valid, datetime_end, usec_per_day,
    usec_per_second.
  rewrite !andb_true_iff, !Z.leb_le, !Z.ltb_lt. lia.
Qed.

Lemma replace_valid (t : datetime) :
  datetime_valid t = true ->
  datetime_valid (replace_second_microsecond_0 t) = true.
Proof.
  pose proof (replace_same_minute t) as Hmin.
  pose proof (replace_floor t) as Hfloor.
  unfold datetime_valid. rewrite !andb_true_iff, !Z.leb_le, !Z.ltb_lt.
  intros [Hlo Hhi]. split; [|lia].
  rewrite Hfloor. apply Z.mul_nonneg_nonneg; [unfold usec_per_minute, usec_per_second; lia|].
  apply Z.div_pos; [lia|]. unfold usec_per_minute, usec_per_second. lia.
Qed.

(** With a window that [datetime] can hold, the invocation is the scan
    of the log by the analyzer that lines 93-95 made. *)
Lemma call_scan self (wall : datetime) (started finished : float) :
  timedelta_valid (_max_age self * usec_per_minute) = true ->
  datetime_valid (replace_second_microsecond_0 wall
                  - _max_age self * usec_per_minute) = true ->
  __call__ self wall started finished
  = finish (windowed self wall) started finished
      (for_lines (windowed self wall) (_log self) Report.new).
Proof.
  intros Hd Ht. unfold __call__, timedelta_minutes, datetime_sub.
  cbn [set_now _now _max_age attr mbind result_bind].
  rewrite Hd. cbn [mbind result_bind]. rewrite Ht. reflexivity.
Qed.

(** Otherwise [OverflowError] leaves line 95, before [Report()] and
    before the loop. *)
Lemma call_overflow self (wall : datetime) (started finished : float) :
  datetime_valid (replace_second_microsecond_0 wall
                  - _max_age self * usec_per_minute) = false ->
  __call__ self wall started finished
  = {| this := set_now self (replace_second_microsecond_0 wall);
       aggregator := None;
       returned := Raise OverflowError |}.
Proof.
  intros Ht. unfold __call__, timedelta_minutes, datetime_sub.
  cbn [set_now _now _max_age attr mbind result_bind].
  destruct (timedelta_valid _); cbn [mbind result_bind]; [|reflexivity].
  rewrite Ht. reflexivity.
Qed.

(** With an age that is not negative the window is not empty. *)
Lemma windowed_ordered self (wall : datetime) now min_time :
  0 <= _max_age self ->
  _now (windowed self wall) = Some now ->
  _min_time (windowed self wall) = Some min_time ->
  min_time <= now.
Proof.
  intros Hage [= <-] [= <-]. unfold usec_per_minute, usec_per_second. lia.
Qed.

(** C8, amended: an invocation first sets [_now] to the wall clock with
    second and microsecond zeroed, a time within the same minute.  When
    that time minus [_max_age] minutes is a datetime, [_min_time] is set
    to exactly it, the whole scan is run by the analyzer holding these
    two values, and they are what the analyzer still holds afterwards;
    when it is not, [OverflowError] is raised before any line is read
    and [_min_time] stays as it was. *)
Theorem call_window self (wall : datetime) (started finished : float) :
  let now := replace_second_microsecond_0 wall in
  let min_time := now - _max_age self * usec_per_minute in
  let r := __call__ self wall started finished in
  datetime_valid wall = true ->
  (second now = 0 /\ microsecond now = 0
   /\ now <= wall < now + usec_per_minute
   /\ _now (this r) = Some now)
  /\ (datetime_valid min_time = true ->
      _now (windowed self wall) = Some now
      /\ _min_time (windowed self wall) = Some min_time
      /\ r = finish (windowed self wall) started finished
               (for_lines (windowed self wall) (_log self) Report.new)
      /\ _now (this r) = Some now
      /\ _min_time (this r) = Some min_time)
  /\ (datetime_valid min_time = false ->
      returned r = Raise OverflowError
      /\ aggregator r = None
      /\ _log (this r) = _log self
      /\ _min_time (this r) = _min_time self).
Proof.
  intros now min_time r Hwall.
  assert (datetime_valid min_time = true ->
          r = finish (windowed self wall) started finished
                (for_lines (windowed self wall) (_log self) Report.new))
    as Hscan.
  { intros Hmin. apply call_scan; [|exact Hmin].
    eapply timedelta_between; [apply replace_valid, Hwall|exact Hmin]. }
  assert (datetime_valid min_time = false ->
          r = {| this := set_now self now; aggregator := None;
                 returned := Raise OverflowError |}) as Hover
    by apply call_overflow.
  split; [|split].
  - split; [apply replace_second|]. split; [apply replace_microsecond|].
    split; [apply replace_same_minute|].
    destruct (datetime_valid min_time) eqn:Hmin.
    + rewrite Hscan by reflexivity.
      destruct (for_lines _ _ _) as [[[| |x] unread] report]; reflexivity.
    + rewrite Hover by reflexivity. reflexivity.
  - intros Hmin. split; [reflexivity|]. split; [reflexivity|].
    split; [exact (Hscan Hmin)|]. rewrite (Hscan Hmin).
    destruct (for_lines _ _ _) as [[[| |x] unread] report]; split; reflexivity.
  - intros Hmin. rewrite (Hover Hmin). repeat split; reflexivity.
Qed.

(** *** What reaches the aggregator *)

Lemma finish_calls self (started finished : float)
    (scan : exit * list string * report_t) report :
  aggregator (finish self started finished scan) = Some report ->
  Report.calls report = Report.calls scan.2.
Proof.
  destruct scan as [[[| |x] unread] report0]; simpl; intros [= <-];
    reflexivity.
Qed.

(** C10: every [add] call an invocation makes comes from a matched line
    of the log, whose verb it carries; its path is that record's full
    path when no monitored path is configured, and otherwise an entry of
    the configured list, one the record's path starts with. *)
Theorem forwarded_path_invariant self (wall : datetime)
    (started finished : float) report (call : Report.call float) :
  aggregator (__call__ self wall started finished) = Some report ->
  In call (Report.calls report) ->
  exists line e,
    In line (_log self) /\ matched self line e
    /\ Report.verb call = LogEntry.verb e
    /\ ((_pathconf self = [] /\ Report.path call = LogEntry.path e)
        \/ (_pathconf self <> []
            /\ In (Report.path call) (_pathconf self)
            /\ String.prefix (Report.path call) (LogEntry.path e) = true)).
Proof.
  intros Hagg Hin.
  destruct (datetime_valid (replace_second_microsecond_0 wall
                            - _max_age self * usec_per_minute)) eqn:Hmin;
    [|rewrite (call_overflow _ _ _ _ Hmin) in Hagg; discriminate].
  destruct (timedelta_valid (_max_age self * usec_per_minute)) eqn:Hd.
  2:{ unfold __call__, timedelta_minutes in Hagg.
      cbn [set_now _now _max_age attr mbind result_bind] in Hagg.
      rewrite Hd in Hagg. discriminate. }
  rewrite (call_scan _ _ _ _ Hd Hmin) in Hagg.
  apply finish_calls in Hagg.
  destruct (for_lines_calls (windowed self wall) (_log self) Report.new)
    as (added & Hadded & Hfrom).
  rewrite Hagg, Hadded in Hin. simpl in Hin.
  rewrite Forall_forall in Hfrom.
  destruct (Hfrom call) as (line & e & Hline & Hm & Hmon & Hverb).
  { apply list_elem_of_In. exact Hin. }
  exists line, e. split; [exact Hline|]. split; [exact Hm|].
  split; [exact Hverb|].
  change (_monitor_path self (LogEntry.path e) = Some (Report.path call))
    in Hmon.
  unfold _monitor_path in Hmon.
  destruct (_pathconf self) as [|p pathconf] eqn:Hconf.
  - left. split; [reflexivity|]. congruence.
  - right. split; [discriminate|].
    apply find_some in Hmon. tauto.
Qed.

(** *** Construction *)

(** C5: with a format that is absent ([None]) or the empty string,
    [__init__] raises [MissingFormatError], whatever the log holds, so
    without reading it; with any other format it does not raise that
    error, and the analyzer it builds holds the log with every line
    still unread. *)
Theorem init_missing_format (format : option string)
    (paths : list string) (max_age : Z) :
  (format = None \/ format = Some "" ->
   forall log,
     __init__ log format paths max_age
     = Raise (MissingFormatError
                "Require log format. Specify format name or regex pattern."))
  /\ (forall fmt,
        format = Some fmt -> fmt <> "" ->
        forall log,
          (forall msg,
              __init__ log format paths max_age
              <> Raise (MissingFormatError msg))
          /\ (forall self,
                __init__ log format paths max_age = Ok self ->
                _log self = log)).
Proof.
  split.
  - intros [->| ->] log; reflexivity.
  - intros fmt -> Hfmt log. unfold __init__.
    destruct fmt as [|a fmt]; [congruence|]. cbn [not_ default from_option id].
    destruct (all_formats !! String a fmt) as [f|]; cbn [mbind result_bind].
    + split; [discriminate|]. intros self [= <-]. reflexivity.
    + destruct (LogFormat_init _ _) as [f|x]; cbn [propagate mbind result_bind].
      * split; [discriminate|]. intros self [= <-]. reflexivity.
      * split; discriminate.
Qed.

End Properties.

(** ** The analyzer at work on the sample format *)

Section Examples.
#[local] Existing Instance Sample.externals.

Example scan_sample :
  let log := ["14:12:50 GET /api/v1/foo 200 0.050 0.045 512"; "junk";
              "14:13:00 GET /x 200 0.050 0.045 512";
              "14:02:59 GET /api/v1 200 1 2 3";
              "14:13:01 GET /api/v1 200 1 2 3"; "later"] in
  let r := __call__ (Sample.analyzer log ["/api/v1"] 10) Sample.wall 0 5 in
  option_map Report.calls (aggregator r)
  = Some [Report.make_call "/api/v1" "GET" 200 50 45 512]
  /\ _log (this r) = ["later"]
  /\ _now (this r) = Some (Sample.at_time 14 13 0)
  /\ _min_time (this r) = Some (Sample.at_time 14 3 0).
Proof. vm_compute. auto. Qed.

(** C1 at [/a], [/ab] and the path [/ab/x]: the first entry wins. *)
Lemma monitor_path_first_prefix_witness :
  let self := Sample.scanning [] ["/a"; "/ab"] 10 in
  first_match (_pathconf self) "/ab/x" "/a"
  /\ ~ Forall (fun p => String.prefix p "/ab/x" = false) (_pathconf self)
  /\ skipped (Sample.scanning [] ["/a"; "/ab"] 10) "14:10:00 GET /x 200 1 1 1".
Proof.
  intros self.
  assert (_pathconf self <> []) as Hconf by discriminate.
  destruct (monitor_path_first_prefix self "/ab/x" Hconf) as (Hfirst & Hnone & _).
  destruct (monitor_path_first_prefix self "/x" Hconf) as (_ & _ & Hskip).
  split; [apply Hfirst; reflexivity|].
  split; [rewrite <- Hnone; discriminate|].
  assert (matched self "14:10:00 GET /x 200 1 1 1"
            (Sample.entry_of ["14:10:00"; "GET"; "/x"; "200"; "1"; "1"; "1"]))
    as Hm by (eexists; split; reflexivity).
  destruct (Hskip eq_refl _ _ Hm eq_refl) as (_ & Hwin).
  apply (Hwin (Sample.at_time 14 10 0)).
  - reflexivity.
  - exists (Sample.at_time 14 13 0), (Sample.at_time 14 3 0).
    split; [reflexivity|]. split; [reflexivity|]. vm_compute.
    split; discriminate.
Defined.

(** C9 with no monitored path configured. *)
Lemma monitor_path_identity_witness :
  let self := Sample.scanning [] [] 10 in
  _monitor_path self "/ab/x" = Some "/ab/x"
  /\ exists call,
       collect self (Sample.entry_of ["14:10:00"; "GET"; "/x"; "200"; "1"; "1"; "1"])
         Report.new
       = Ok (Continue, Report.add Report.new call)
       /\ Report.path call = "/x".
Proof.
  intros self.
  destruct (monitor_path_identity self eq_refl) as (Hid & Hadd).
  split; [apply Hid|].
  destruct (Hadd (Sample.entry_of ["14:10:00"; "GET"; "/x"; "200"; "1"; "1"; "1"])
              Report.new Continue
              (Report.add Report.new (Report.make_call "/x" "GET" 200 1000 1000 1))
              eq_refl) as (call & Hcall & Hpath).
  exists call. rewrite <- Hcall. split; [reflexivity|exact Hpath].
Defined.

(** C6 on a line that is no record. *)
Lemma unmatched_line_skipped_witness :
  skipped (Sample.scanning [] [] 10) "-- log rotated --".
Proof. apply unmatched_line_skipped. reflexivity. Defined.

(** C3 on a record one second older than the window of ten minutes. *)
Lemma too_old_record_skipped_witness :
  skipped (Sample.scanning [] [] 10) "14:02:59 GET /x 200 1 1 1".
Proof.
  apply (too_old_record_skipped (Sample.scanning [] [] 10) _
           (Sample.entry_of ["14:02:59"; "GET"; "/x"; "200"; "1"; "1"; "1"])
           (Sample.at_time 14 2 59) (Sample.at_time 14 3 0)).
  - eexists. split; reflexivity.
  - reflexivity.
  - reflexivity.
  - reflexivity.
Defined.

(** C2 as stated fails when [max_age] is negative: the window is then
    empty and [_min_time] lies after [_now].  With [max_age = -1] and the
    clock at 14:13:27.5, the record of 14:13:30 is after [_now] (14:13:00)
    and before [_min_time] (14:14:00): the scan passes over it as too
    old and goes on, here into a line whose timestamp does not parse. *)
Lemma future_record_passed_over :
  let self := Sample.scanning [] [] (-1) in
  let line := "14:13:30 GET /x 200 1 1 1" in
  let log := [line; "xx:yy:zz GET /x 200 1 1 1"; "14:13:00 GET /x 200 1 1 1"] in
  let r := __call__ (Sample.analyzer log [] (-1)) Sample.wall 0 0 in
  (exists e ts now,
      matched self line e /\ stamped self e ts
      /\ _now self = Some now /\ now < ts
      /\ body self line Report.new = Ok (Continue, Report.new)
      /\ ~ stops_at self line)
  /\ returned r = Raise ValueError
  /\ _log (this r) = ["14:13:00 GET /x 200 1 1 1"].
Proof.
  intros self line log r. split; [|split; reflexivity].
  exists (Sample.entry_of ["14:13:30"; "GET"; "/x"; "200"; "1"; "1"; "1"]),
    (Sample.at_time 14 13 30), (Sample.at_time 14 13 0).
  split; [eexists; split; reflexivity|].
  split; [reflexivity|]. split; [reflexivity|]. split; [reflexivity|].
  split; [reflexivity|].
  intros [Hbreak _]. specialize (Hbreak Report.new).
  vm_compute in Hbreak. discriminate.
Qed.

(** C2, amended, with the usual window of ten minutes. *)
Lemma future_record_stops_witness :
  stops_at (Sample.scanning [] [] 10) "14:13:01 GET /x 200 1 1 1".
Proof.
  apply (future_record_stops (Sample.scanning [] [] 10) _
           (Sample.entry_of ["14:13:01"; "GET"; "/x"; "200"; "1"; "1"; "1"])
           (Sample.at_time 14 13 1) (Sample.at_time 14 13 0)
           (Sample.at_time 14 3 0)).
  - eexists. split; reflexivity.
  - reflexivity.
  - reflexivity.
  - reflexivity.
  - discriminate.
  - reflexivity.
Defined.

(** C4 as stated fails when [max_age] is negative.  With [max_age = -1]
    and the clock at 14:13:27.5, [_now] is 14:13:00 and [_min_time] is
    14:14:00: the record stamped [_now] is passed over as too old, and
    the record stamped [_min_time] stops the scan; neither reaches path
    monitoring, which would have forwarded both. *)
Lemma window_ends_excluded :
  let self := Sample.scanning [] [] (-1) in
  let at_now := Sample.entry_of ["14:13:00"; "GET"; "/x"; "200"; "1"; "1"; "1"] in
  let at_min := Sample.entry_of ["14:14:00"; "GET"; "/x"; "200"; "1"; "1"; "1"] in
  _now self = Some (Sample.at_time 14 13 0)
  /\ _min_time self = Some (Sample.at_time 14 14 0)
  /\ (matched self "14:13:00 GET /x 200 1 1 1" at_now
      /\ stamped self at_now (Sample.at_time 14 13 0)
      /\ body self "14:13:00 GET /x 200 1 1 1" Report.new
         = Ok (Continue, Report.new)
      /\ body self "14:13:00 GET /x 200 1 1 1" Report.new
         <> collect self at_now Report.new)
  /\ (matched self "14:14:00 GET /x 200 1 1 1" at_min
      /\ stamped self at_min (Sample.at_time 14 14 0)
      /\ body self "14:14:00 GET /x 200 1 1 1" Report.new
         = Ok (Break, Report.new)
      /\ body self "14:14:00 GET /x 200 1 1 1" Report.new
         <> collect self at_min Report.new).
Proof.
  intros self at_now at_min.
  split; [reflexivity|]. split; [reflexivity|]. split.
  - split; [eexists; split; reflexivity|]. split; [reflexivity|].
    split; [reflexivity|]. intros Heq. vm_compute in Heq. discriminate.
  - split; [eexists; split; reflexivity|]. split; [reflexivity|].
    split; [reflexivity|]. intros Heq. vm_compute in Heq. discriminate.
Qed.

(** C4, amended, at both ends of the window of ten minutes. *)
Lemma window_inclusive_witness :
  let self := Sample.scanning [] [] 10 in
  (forall report,
      body self "14:03:00 GET /x 200 1 1 1" report
      = collect self
          (Sample.entry_of ["14:03:00"; "GET"; "/x"; "200"; "1"; "1"; "1"])
          report)
  /\ (forall report,
        body self "14:13:00 GET /x 200 1 1 1" report
        = collect self
            (Sample.entry_of ["14:13:00"; "GET"; "/x"; "200"; "1"; "1"; "1"])
            report).
Proof.
  intros self. split.
  - apply (window_inclusive self _ _ (Sample.at_time 14 3 0)).
    + eexists. split; reflexivity.
    + reflexivity.
    + exists (Sample.at_time 14 13 0), (Sample.at_time 14 3 0).
      split; [reflexivity|]. split; [reflexivity|]. vm_compute.
      split; discriminate.
  - apply (window_inclusive self _ _ (Sample.at_time 14 13 0)).
    + eexists. split; reflexivity.
    + reflexivity.
    + exists (Sample.at_time 14 13 0), (Sample.at_time 14 3 0).
      split; [reflexivity|]. split; [reflexivity|]. vm_compute.
      split; discriminate.
Defined.

(** C7 on a record in the window, under a monitored path, whose request
    time is [-]; the call of the line before it stays in the report. *)
Lemma malformed_line_aborts_witness :
  let self := Sample.scanning [] ["/api"] 10 in
  let good := "14:09:00 GET /api/a 200 0.050 0.045 512" in
  let bad := "14:10:00 GET /api/b 200 - 0.045 512" in
  let r := __call__ (Sample.analyzer [good; bad; "14:11:00 GET /api/c 200 1 1 1"]
                       ["/api"] 10) Sample.wall 0 5 in
  aborts_at self bad ValueError
  /\ aborts_at self "14/10/00 GET /api/b 200 1 1 1" ValueError
  /\ returned r = Raise ValueError
  /\ option_map Report.calls (aggregator r)
     = Some [Report.make_call "/api" "GET" 200 50 45 512]
  /\ _log (this r) = ["14:11:00 GET /api/c 200 1 1 1"].
Proof.
  intros self good bad r. split; [|split; [|repeat split; reflexivity]].
  - apply (malformed_line_aborts self bad
             (Sample.entry_of ["14:10:00"; "GET"; "/api/b"; "200"; "-"; "0.045"; "512"])).
    + eexists. split; reflexivity.
    + right. exists (Sample.at_time 14 10 0), "/api".
      split; [reflexivity|]. split.
      * exists (Sample.at_time 14 13 0), (Sample.at_time 14 3 0).
        split; [reflexivity|]. split; [reflexivity|]. vm_compute.
        split; discriminate.
      * split; [reflexivity|]. right. left. reflexivity.
  - apply (malformed_line_aborts self "14/10/00 GET /api/b 200 1 1 1"
             (Sample.entry_of ["14/10/00"; "GET"; "/api/b"; "200"; "1"; "1"; "1"])).
    + eexists. split; reflexivity.
    + left. reflexivity.
Defined.

(** C8 as stated fails when [_max_age] minutes before [_now] is no
    datetime.  With [max_age = 10000000000], some nineteen thousand
    years, line 95 raises [OverflowError]: [_min_time] is not set and
    no line is read. *)
Lemma min_time_out_of_range :
  let self := Sample.analyzer ["14:13:00 GET /x 200 1 1 1"] [] 10000000000 in
  let r := __call__ self Sample.wall 0 0 in
  datetime_valid Sample.wall = true
  /\ _min_time (this r)
     <> Some (replace_second_microsecond_0 Sample.wall
              - _max_age self * usec_per_minute)
  /\ _min_time (this r) = None
  /\ returned r = Raise OverflowError
  /\ _log (this r) = _log self.
Proof.
  intros self r. split; [reflexivity|]. split; [|repeat split; reflexivity].
  intros Heq. vm_compute in Heq. discriminate.
Qed.

(** C8, amended, with the clock at 14:13:27.5 and ten minutes of age. *)
Lemma call_window_witness :
  let self := Sample.analyzer ["14:13:00 GET /x 200 1 1 1"] [] 10 in
  let r := __call__ self Sample.wall 0 5 in
  _now (this r) = Some (Sample.at_time 14 13 0)
  /\ _min_time (this r) = Some (Sample.at_time 14 3 0)
  /\ r = finish (windowed self Sample.wall) 0 5
           (for_lines (windowed self Sample.wall) (_log self) Report.new).
Proof.
  intros self r.
  pose proof (call_window self Sample.wall 0 5) as Hw. cbv zeta in Hw.
  destruct (Hw eq_refl) as (_ & Hset & _).
  destruct (Hset eq_refl) as (_ & _ & Hscan & Hnow & Hmin).
  split; [exact Hnow|]. split; [exact Hmin|exact Hscan].
Defined.

(** C10 on a scan with two monitored paths. *)
Lemma forwarded_path_invariant_witness :
  let log := ["14:09:00 GET /ab/x 200 0.050 0.045 512";
              "14:10:00 GET /other 200 1 1 1"] in
  let self := Sample.analyzer log ["/a"; "/ab"] 10 in
  exists line e,
    In line (_log self) /\ matched self line e
    /\ Report.verb (Report.make_call "/a" "GET" 200 50 45 512) = LogEntry.verb e
    /\ ((_pathconf self = []
         /\ Report.path (Report.make_call "/a" "GET" 200 50 45 512)
            = LogEntry.path e)
        \/ (_pathconf self <> []
            /\ In (Report.path (Report.make_call "/a" "GET" 200 50 45 512))
                 (_pathconf self)
            /\ String.prefix (Report.path (Report.make_call "/a" "GET" 200 50 45 512))
                 (LogEntry.path e) = true)).
Proof.
  intros log self.
  eapply (forwarded_path_invariant self Sample.wall 0 5).
  - reflexivity.
  - left. reflexivity.
Defined.

(** Construction without and with a format, registered or custom. *)
Example init_sample :
  to_option (_log <$> __init__ ["a line"] (Some "") [] 10) = None
  /\ to_option (_log <$> __init__ ["a line"] None [] 10) = None
  /\ to_option (_log <$> __init__ ["a line"] (Some "sample") [] 10)
     = Some ["a line"]
  /\ to_option (_log <$> __init__ ["a line"] (Some "nosuchthing") [] 10)
     = Some ["a line"].
Proof. vm_compute. auto. Qed.

End Examples.

(** ** Further properties of the scan *)

Section Coverage.
Context `{Externals}.

Local Abbreviation exc := (exn foreign).
Local Abbreviation report_t := (Report.t float).

Implicit Types (self : Analyzer) (line path : string) (e : LogEntry.t)
  (report : report_t) (ts now min_time : datetime).

(** *** Each pass adds the call of its line *)

Lemma body_call_of self line report :
  match body self line report with
  | Ok (_, report') =>
      report' = match call_of self line with
                | Some call => Report.add report call
                | None => report
                end
  | Raise _ => call_of self line = None
  end.
Proof.
  unfold body, call_of, _timestamp, collect.
  destruct (pattern (_format self) line) as [m|]; cbn; [|reflexivity].
  destruct (strptime _ _) as [ts|]; cbn; [|reflexivity].
  destruct (_min_time self) as [min_time|]; cbn; [|reflexivity].
  destruct (Z.ltb_spec ts min_time), (Z.leb_spec min_time ts); try lia; cbn.
  { destruct (_now self); reflexivity. }
  destruct (_now self) as [now|]; cbn; [|reflexivity].
  destruct (Z.gtb_spec ts now), (Z.leb_spec ts now); try lia; cbn;
    [reflexivity|].
  destruct (_monitor_path self _); cbn; [|reflexivity].
  destruct (py_int (LogEntry.status _)); cbn; [|reflexivity].
  destruct (py_float (LogEntry.request_time _)); cbn; [|reflexivity].
  destruct (py_float (LogEntry.upstream_response_time _)); cbn; [|reflexivity].
  destruct (py_int (LogEntry.body_bytes_sent _)); cbn; reflexivity.
Qed.

(** What [call_of] answers is made from a matched record in the window. *)
Lemma call_of_inv self line (call : Report.call float) :
  call_of self line = Some call ->
  exists e ts now min_time,
    matched self line e /\ stamped self e ts
    /\ _now self = Some now /\ _min_time self = Some min_time
    /\ min_time <= ts <= now
    /\ _monitor_path self (LogEntry.path e) = Some (Report.path call)
    /\ Report.verb call = LogEntry.verb e
    /\ py_int (LogEntry.status e) = Some (Report.status call)
    /\ py_float (LogEntry.request_time e) = Some (Report.time call)
    /\ py_float (LogEntry.upstream_response_time e)
       = Some (Report.upstream_time call)
    /\ py_int (LogEntry.body_bytes_sent e) = Some (Report.body_bytes call).
Proof.
  unfold call_of.
  destruct (pattern (_format self) line) as [m|] eqn:Hm; cbn; [|discriminate].
  destruct (strptime _ _) as [ts|] eqn:Hts; cbn; [|discriminate].
  destruct (_min_time self) as [min_time|]; cbn; [|discriminate].
  destruct (_now self) as [now|]; cbn; [|discriminate].
  destruct (Z.leb_spec min_time ts), (Z.leb_spec ts now); cbn;
    try discriminate.
  destruct (_monitor_path self _) as [p|] eqn:Hp; cbn; [|discriminate].
  destruct (py_int (LogEntry.status _)) eqn:Hst; cbn; [|discriminate].
  destruct (py_float (LogEntry.request_time _)) eqn:Ht; cbn; [|discriminate].
  destruct (py_float (LogEntry.upstream_response_time _)) eqn:Hu; cbn;
    [|discriminate].
  destruct (py_int (LogEntry.body_bytes_sent _)) eqn:Hb; cbn; [|discriminate].
  intros [= <-]. exists (entry (_format self) m), ts, now, min_time. cbn.
  split; [exists m; auto|]. unfold stamped. repeat split; auto.
Qed.

(** The scan reads a prefix of the source and adds, in order, the calls
    of the lines it read. *)
Lemma for_lines_call_of self (lines : list string) report :
  exists consumed,
    lines = consumed ++ (for_lines self lines report).1.2
    /\ Report.calls (for_lines self lines report).2
       = Report.calls report ++ omap (call_of self) consumed
    /\ Report.execution_time (for_lines self lines report).2
       = Report.execution_time report
    /\ ((for_lines self lines report).1.1 = Exhausted -> consumed = lines).
Proof.
  revert report. induction lines as [|line rest IH]; intros report; simpl.
  - exists []. simpl. rewrite app_nil_r. auto.
  - pose proof (body_call_of self line report) as Hbody.
    destruct (body self line report) as [[c report']|x].
    + assert (Report.calls report'
              = Report.calls report ++ omap (call_of self) [line]
              /\ Report.execution_time report' = Report.execution_time report)
        as [Hcalls Htime].
      { subst report'. simpl. destruct (call_of self line); simpl;
          rewrite ?app_nil_r; auto. }
      destruct c.
      * destruct (IH report') as (consumed & Hsplit & Hadded & Hkept & Hall).
        exists (line :: consumed). rewrite Hadded, Hkept, Hcalls, Htime.
        split; [simpl; congruence|].
        split; [rewrite <- app_assoc, <- omap_app; reflexivity|].
        split; [reflexivity|]. intros Hx. rewrite (Hall Hx). reflexivity.
      * exists [line]. simpl. repeat split; auto. discriminate.
    + exists [line]. simpl. rewrite Hbody, app_nil_r.
      repeat split; auto. discriminate.
Qed.

Lemma length_omap_le {A B} (f : A -> option B) (l : list A) :
  (length (omap f l) <= length l)%nat.
Proof.
  induction l as [|a l IH]; simpl; [lia|].
  change (list_omap A B f l) with (omap f l).
  destruct (f a); simpl; lia.
Qed.

(** An invocation either scans with the window set or stops at line 95. *)
Lemma call_cases self (wall : datetime) (started finished : float) :
  __call__ self wall started finished
  = finish (windowed self wall) started finished
      (for_lines (windowed self wall) (_log self) Report.new)
  \/ __call__ self wall started finished
     = {| this := set_now self (replace_second_microsecond_0 wall);
          aggregator := None;
          returned := Raise OverflowError |}.
Proof.
  destruct (datetime_valid (replace_second_microsecond_0 wall
                            - _max_age self * usec_per_minute)) eqn:Hmin;
    [|right; apply call_overflow, Hmin].
  destruct (timedelta_valid (_max_age self * usec_per_minute)) eqn:Hd;
    [left; apply call_scan; assumption|].
  right. unfold __call__, timedelta_minutes.
  cbn [set_now _now _max_age attr mbind result_bind]. rewrite Hd. reflexivity.
Qed.

Lemma finish_this self (started finished : float)
    (scan : exit * list string * report_t) :
  this (finish self started finished scan) = set_log self scan.1.2.
Proof. destruct scan as [[[| |x] unread] report0]; reflexivity. Qed.

(** With the window set, only a parse can fail. *)
Lemma body_raises_ValueError self line report now min_time (x : exc) :
  _now self = Some now -> _min_time self = Some min_time ->
  body self line report = Raise x -> x = ValueError.
Proof.
  intros Hnow Hmin. unfold body, _timestamp, collect. rewrite Hnow, Hmin.
  destruct (pattern (_format self) line) as [m|]; cbn; [|discriminate].
  destruct (strptime _ _) as [ts|]; cbn; [|congruence].
  destruct (ts <? min_time); [discriminate|].
  destruct (ts >? now); [discriminate|].
  destruct (_monitor_path self _); cbn; [|discriminate].
  destruct (py_int (LogEntry.status _)); cbn; [|congruence].
  destruct (py_float (LogEntry.request_time _)); cbn; [|congruence].
  destruct (py_float (LogEntry.upstream_response_time _)); cbn; [|congruence].
  destruct (py_int (LogEntry.body_bytes_sent _)); cbn; [discriminate|congruence].
Qed.

Lemma for_lines_raises_ValueError self (lines : list string) report
    now min_time (x : exc) :
  _now self = Some now -> _min_time self = Some min_time ->
  (for_lines self lines report).1.1 = Raised x -> x = ValueError.
Proof.
  intros Hnow Hmin. revert report.
  induction lines as [|line rest IH]; intros report; simpl; [discriminate|].
  destruct (body self line report) as [[[|] report']|y] eqn:Hbody; simpl.
  - apply IH.
  - discriminate.
  - intros [= <-]. eapply body_raises_ValueError; eauto.
Qed.

(** An empty window earns no line a call. *)
Lemma call_of_empty_window self line now min_time :
  _now self = Some now -> _min_time self = Some min_time -> now < min_time ->
  call_of self line = None.
Proof.
  intros Hnow Hmin Hlt. unfold call_of. rewrite Hnow, Hmin.
  destruct (pattern (_format self) line) as [m|]; cbn; [|reflexivity].
  destruct (strptime _ _) as [ts|]; cbn; [|reflexivity].
  destruct (Z.leb_spec min_time ts), (Z.leb_spec ts now); cbn;
    try reflexivity; lia.
Qed.

Lemma omap_all_None {A B} (f : A -> option B) (l : list A) :
  (forall a, f a = None) -> omap f l = [].
Proof.
  intros Hnone. induction l as [|a l IH]; simpl; [reflexivity|].
  rewrite Hnone. exact IH.
Qed.

(** *** What an invocation reports *)

(** X1: the report of an invocation lists, in the order of the log, the
    calls of the lines the invocation read, and nothing else; the lines
    read are those before the lines left unread. *)
Theorem report_lists_calls_of_lines_read self (wall : datetime)
    (started finished : float) report :
  aggregator (__call__ self wall started finished) = Some report ->
  exists consumed,
    _log self = consumed ++ _log (this (__call__ self wall started finished))
    /\ Report.calls report = omap (call_of (windowed self wall)) consumed.
Proof.
  destruct (call_cases self wall started finished) as [-> | ->];
    [|discriminate].
  intros Hagg. apply finish_calls in Hagg. rewrite finish_this.
  destruct (for_lines_call_of (windowed self wall) (_log self) Report.new)
    as (consumed & Hsplit & Hcalls & _).
  exists consumed. split; [exact Hsplit|]. rewrite Hagg, Hcalls. reflexivity.
Qed.

(** X2: every call in the report of an invocation was made from a
    matched line of the log whose timestamp lies within [_max_age]
    minutes before the truncated clock, ends included; it carries the
    verb of the record, the monitored path of its path and the numbers
    its four fields parse to. *)
Theorem forwarded_call_in_window self (wall : datetime)
    (started finished : float) report (call : Report.call float) :
  aggregator (__call__ self wall started finished) = Some report ->
  In call (Report.calls report) ->
  exists line e ts,
    In line (_log self) /\ matched self line e /\ stamped self e ts
    /\ replace_second_microsecond_0 wall - _max_age self * usec_per_minute
       <= ts <= replace_second_microsecond_0 wall
    /\ _monitor_path self (LogEntry.path e) = Some (Report.path call)
    /\ Report.verb call = LogEntry.verb e
    /\ py_int (LogEntry.status e) = Some (Report.status call)
    /\ py_float (LogEntry.request_time e) = Some (Report.time call)
    /\ py_float (LogEntry.upstream_response_time e)
       = Some (Report.upstream_time call)
    /\ py_int (LogEntry.body_bytes_sent e) = Some (Report.body_bytes call).
Proof.
  destruct (call_cases self wall started finished) as [-> | ->];
    [|discriminate].
  intros Hagg Hin. apply finish_calls in Hagg.
  destruct (for_lines_call_of (windowed self wall) (_log self) Report.new)
    as (consumed & Hsplit & Hcalls & _).
  rewrite Hagg, Hcalls in Hin. simpl in Hin.
  apply list_elem_of_In, list_elem_of_omap in Hin as (line & Hline & Hcall).
  apply call_of_inv in Hcall
    as (e & ts & now & min_time & Hm & Hts & [= <-] & [= <-] & Hwin & Hrest).
  exists line, e, ts. split.
  { rewrite Hsplit. apply in_or_app. left. apply list_elem_of_In, Hline. }
  split; [exact Hm|]. split; [exact Hts|]. split; [exact Hwin|exact Hrest].
Qed.

(** X3: an invocation makes at most one call per line it reads: the
    calls in the report and the lines left unread are together no more
    than the lines of the log. *)
Theorem calls_bounded_by_lines_read self (wall : datetime)
    (started finished : float) report :
  aggregator (__call__ self wall started finished) = Some report ->
  (length (Report.calls report)
   + length (_log (this (__call__ self wall started finished)))
   <= length (_log self))%nat.
Proof.
  destruct (call_cases self wall started finished) as [-> | ->];
    [|discriminate].
  intros Hagg. apply finish_calls in Hagg. rewrite finish_this.
  destruct (for_lines_call_of (windowed self wall) (_log self) Report.new)
    as (consumed & Hsplit & Hcalls & _).
  pose proof (length_omap_le (call_of (windowed self wall)) consumed) as Hle.
  apply (f_equal length) in Hsplit. rewrite length_app in Hsplit.
  rewrite Hagg, Hcalls, length_app. simpl in *. lia.
Qed.

(** X4: with a negative [_max_age] the window is empty: whatever the log
    holds, the report of the invocation has no call. *)
Theorem negative_age_forwards_nothing self (wall : datetime)
    (started finished : float) report :
  _max_age self < 0 ->
  aggregator (__call__ self wall started finished) = Some report ->
  Report.calls report = [].
Proof.
  intros Hage.
  destruct (call_cases self wall started finished) as [-> | ->];
    [|discriminate].
  intros Hagg. apply finish_calls in Hagg.
  destruct (for_lines_call_of (windowed self wall) (_log self) Report.new)
    as (consumed & _ & Hcalls & _).
  rewrite Hagg, Hcalls. simpl. apply omap_all_None. intros line.
  eapply call_of_empty_window; [reflexivity|reflexivity|].
  unfold usec_per_minute, usec_per_second. lia.
Qed.

(** X5: an invocation raises nothing but [OverflowError], from the
    window computation with nothing read and no report made, and
    [ValueError], from a line of the log; it never fails on an unset
    attribute. *)
Theorem call_raises_overflow_or_value self (wall : datetime)
    (started finished : float) (x : exc) :
  returned (__call__ self wall started finished) = Raise x ->
  (x = OverflowError
   /\ aggregator (__call__ self wall started finished) = None
   /\ _log (this (__call__ self wall started finished)) = _log self)
  \/ (x = ValueError
      /\ exists report,
           aggregator (__call__ self wall started finished) = Some report
           /\ Report.execution_time report = None).
Proof.
  destruct (call_cases self wall started finished) as [-> | ->].
  - intros Hret. right.
    pose proof (for_lines_raises_ValueError (windowed self wall) (_log self)
                  Report.new _ _ x eq_refl eq_refl) as Hval.
    destruct (for_lines_call_of (windowed self wall) (_log self) Report.new)
      as (_ & _ & _ & Htime & _).
    destruct (for_lines (windowed self wall) (_log self) Report.new)
      as [[[| |y] unread] report]; simpl in *; try discriminate.
    injection Hret as <-. split; [apply Hval; reflexivity|].
    exists report. split; [reflexivity|exact Htime].
  - intros [= <-]. left. repeat split; reflexivity.
Qed.

(** X6: an invocation leaves the configuration of the analyzer alone:
    format, monitored paths, maximal age and the analyzer's own
    [execution_time] are what they were (the duration goes to the
    report); of the log it only takes lines from the front. *)
Theorem call_keeps_configuration self (wall : datetime)
    (started finished : float) :
  let r := __call__ self wall started finished in
  _format (this r) = _format self
  /\ _pathconf (this r) = _pathconf self
  /\ _max_age (this r) = _max_age self
  /\ execution_time (this r) = execution_time self
  /\ exists consumed, _log self = consumed ++ _log (this r).
Proof.
  intros r. subst r.
  destruct (call_cases self wall started finished) as [-> | ->].
  - rewrite finish_this.
    destruct (for_lines_call_of (windowed self wall) (_log self) Report.new)
      as (consumed & Hsplit & _).
    repeat split; eauto.
  - repeat split. exists []. reflexivity.
Qed.

(** X7: an invocation over an empty log, with a window that [datetime]
    holds, returns a report without calls whose [execution_time] is the
    difference of the two clock readings. *)
Theorem empty_log_empty_report self (wall : datetime)
    (started finished : float) :
  _log self = [] ->
  datetime_valid wall = true ->
  datetime_valid (replace_second_microsecond_0 wall
                  - _max_age self * usec_per_minute) = true ->
  let r := __call__ self wall started finished in
  returned r = Ok (Report.make [] (Some (float_sub finished started)))
  /\ aggregator r = Some (Report.make [] (Some (float_sub finished started)))
  /\ _log (this r) = [].
Proof.
  intros Hlog Hwall Hmin r. subst r. rewrite call_scan; [|
    eapply timedelta_between; [apply replace_valid, Hwall|exact Hmin] |
    exact Hmin].
  rewrite Hlog. repeat split; reflexivity.
Qed.

(** X8: a later invocation of the same analyzer reads only what the
    earlier one left unread, a tail of the log.  Every call of its report
    is the call of a line the first invocation did not read, and after a
    first invocation that read the log to its end the report has no
    call. *)
Theorem later_invocation_reads_the_rest self (wall wall' : datetime)
    (started finished started' finished' : float) report
    (call : Report.call float) :
  let first := __call__ self wall started finished in
  let second := __call__ (this first) wall' started' finished' in
  aggregator second = Some report ->
  (exists consumed, _log self = consumed ++ _log (this first))
  /\ (In call (Report.calls report) ->
      exists line,
        In line (_log (this first))
        /\ call_of (windowed (this first) wall') line = Some call)
  /\ (_log (this first) = [] -> Report.calls report = []).
Proof.
  intros first second Hagg. subst second. split.
  { subst first.
    destruct (call_cases self wall started finished) as [-> | ->].
    - rewrite finish_this.
      destruct (for_lines_call_of (windowed self wall) (_log self) Report.new)
        as (consumed & Hsplit & _).
      eauto.
    - exists []. reflexivity. }
  revert Hagg. generalize (this first) as self'. intros self' Hagg.
  destruct (call_cases self' wall' started' finished') as [Hc|Hc];
    rewrite Hc in Hagg; [|discriminate].
  apply finish_calls in Hagg.
  destruct (for_lines_call_of (windowed self' wall') (_log self') Report.new)
    as (consumed & Hsplit & Hcalls & _).
  rewrite Hagg, Hcalls. simpl. split.
  - intros Hin.
    apply list_elem_of_In, list_elem_of_omap in Hin as (line & Hline & Hcall).
    exists line. split; [|exact Hcall].
    rewrite Hsplit. apply in_or_app. left. apply list_elem_of_In, Hline.
  - intros Hnil. rewrite Hnil in Hsplit.
    destruct consumed; [reflexivity|discriminate].
Qed.

(** X9: scanning a source made of two parts is scanning the first and,
    when that reaches its end, the second with the report so far; when
    the first part stops or aborts the scan, the second is left unread
    behind what the first left. *)
Theorem scan_of_concatenation self (first second : list string) report :
  for_lines self (first ++ second) report =
    match for_lines self first report with
    | (Exhausted, _, report') => for_lines self second report'
    | (x, unread, report') => (x, unread ++ second, report')
    end.
Proof. apply for_lines_app. Qed.

(** *** Monitored paths *)

Lemma prefix_refl (s : string) : String.prefix s s = true.
Proof.
  induction s as [|a s IH]; simpl; [reflexivity|].
  destruct (ascii_dec a a); [exact IH|congruence].
Qed.

Lemma prefix_trans (a b c : string) :
  String.prefix a b = true -> String.prefix b c = true ->
  String.prefix a c = true.
Proof.
  revert b c. induction a as [|x a IH]; intros b c;
    [intros; destruct c; reflexivity|].
  destruct b as [|y b]; simpl; [discriminate|].
  destruct (ascii_dec x y) as [<-|]; [|discriminate].
  destruct c as [|z c]; simpl; [discriminate|].
  destruct (ascii_dec x z); [|discriminate]. apply IH.
Qed.

(** Once an entry matches, the search does not go past its part of the
    list. *)
Lemma find_app_hit {A} (f : A -> bool) (before rest : list A) (q r : A) :
  In q before -> f q = true ->
  find f (before ++ rest) = Some r -> In r before.
Proof.
  induction before as [|b before IH]; simpl; [tauto|].
  intros Hq Hf. destruct (f b) eqn:Hb.
  - intros [= <-]. auto.
  - destruct Hq as [->|Hq]; [congruence|]. auto.
Qed.

(** X10: the monitored path of a path is a prefix of it, and a fixed
    point of the resolution: resolving it again answers it again. *)
Theorem monitor_path_prefix_fixpoint self path (monitored : string) :
  _monitor_path self path = Some monitored ->
  String.prefix monitored path = true
  /\ _monitor_path self monitored = Some monitored.
Proof.
  unfold _monitor_path. destruct (_pathconf self) as [|p0 conf] eqn:Hconf.
  - intros [= <-]. split; [apply prefix_refl|reflexivity].
  - generalize (p0 :: conf). clear Hconf. intros pathconf Hfind.
    assert (String.prefix monitored path = true) as Hpre
      by (apply find_some in Hfind; tauto).
    split; [exact Hpre|].
    induction pathconf as [|p pathconf IH]; simpl in *; [discriminate|].
    destruct (String.prefix p path) eqn:Hp.
    + injection Hfind as ->. rewrite prefix_refl. reflexivity.
    + destruct (String.prefix p monitored) eqn:Hpm; [|auto].
      rewrite (prefix_trans _ _ _ Hpm Hpre) in Hp. discriminate.
Qed.

(** X11: an entry of the configured list that comes after a prefix of
    itself, and not before it, is never the monitored path of any
    path: the earlier entry shadows it. *)
Theorem shadowed_entry_unreachable self (before after : list string)
    (shadow monitored : string) :
  _pathconf self = before ++ monitored :: after ->
  ~ In monitored before ->
  In shadow before -> String.prefix shadow monitored = true ->
  forall path, _monitor_path self path <> Some monitored.
Proof.
  intros Hconf Hfresh Hin Hpre path Hmon.
  unfold _monitor_path in Hmon. rewrite Hconf in Hmon.
  destruct (before ++ monitored :: after) eqn:Hl;
    [destruct before; discriminate|].
  rewrite <- Hl in Hmon. clear Hl.
  assert (String.prefix monitored path = true) as Hpath
    by (apply find_some in Hmon; tauto).
  apply Hfresh.
  apply (find_app_hit (fun p => String.prefix p path) before
           (monitored :: after) shadow monitored Hin);
    [eapply prefix_trans; eauto|exact Hmon].
Qed.

(** *** Construction *)

(** X12: with a format that is not empty, [__init__] takes a registered
    format from the registry, without building one, and builds a custom
    one from the escaped identifier otherwise; it fails only when that
    constructor does, with the constructor's error; the analyzer built
    holds the paths and the age it was given, no duration and no
    window. *)
Theorem init_resolves_format (log : list string) (fmt : string)
    (paths : list string) (max_age : Z) :
  fmt <> "" ->
  (forall x,
      __init__ log (Some fmt) paths max_age = Raise x ->
      all_formats !! fmt = None
      /\ exists y,
           LogFormat_init "custom" (re_escape fmt) = Raise y /\ x = Foreign y)
  /\ (forall self,
        __init__ log (Some fmt) paths max_age = Ok self ->
        (all_formats !! fmt = Some (_format self)
         \/ (all_formats !! fmt = None
             /\ LogFormat_init "custom" (re_escape fmt) = Ok (_format self)))
        /\ _pathconf self = paths /\ _max_age self = max_age
        /\ execution_time self = None
        /\ _now self = None /\ _min_time self = None).
Proof.
  intros Hfmt. unfold __init__.
  destruct fmt as [|a fmt]; [congruence|]. cbn [not_ default from_option id].
  destruct (all_formats !! String a fmt) as [f|]; cbn [mbind result_bind].
  - split; [discriminate|]. intros self [= <-]. simpl. auto 10.
  - destruct (LogFormat_init _ _) as [f|y]; cbn [propagate mbind result_bind].
    + split; [discriminate|]. intros self [= <-]. simpl. auto 10.
    + split; [|discriminate]. intros x [= <-]. eauto.
Qed.

End Coverage.

(** ** Properties of [setup.py] *)

(** X13: whatever the interpreter, [tabulate] comes first among the
    requirements and no requirement is listed twice; [mock] is required
    exactly below Python 3.3 and [numpy] exactly below Python 3.4, so
    [mock] never comes without [numpy], and nothing else is required. *)
Theorem requirements_by_version (PYMAJ PYMIN : Z) :
  let requirements := Setup.requirements PYMAJ PYMIN in
  head requirements = Some "tabulate"
  /\ List.NoDup requirements
  /\ (In "mock" requirements <-> PYMAJ < 3 \/ (PYMAJ = 3 /\ PYMIN < 3))
  /\ (In "numpy" requirements <-> PYMAJ < 3 \/ (PYMAJ = 3 /\ PYMIN < 4))
  /\ (In "mock" requirements -> In "numpy" requirements)
  /\ (forall r, In r requirements ->
                r = "tabulate" \/ r = "mock" \/ r = "numpy").
Proof.
  unfold Setup.requirements.
  destruct (Z.ltb_spec PYMAJ 3), (Z.eqb_spec PYMAJ 3), (Z.ltb_spec PYMIN 3),
    (Z.ltb_spec PYMIN 4); try lia; simpl;
    (split; [reflexivity|]);
    (split; [repeat (apply List.NoDup_cons; [simpl; intuition discriminate|]);
             apply List.NoDup_nil|]);
    (split; [split; [intuition (discriminate || lia)|intuition lia]|]);
    (split; [split; [intuition (discriminate || lia)|intuition lia]|]);
    (split; [intuition discriminate|]);
    intros r; intuition auto.
Qed.

(** ** The further properties on the sample format *)

Section CoverageExamples.
#[local] Existing Instance Sample.externals.

(** X1 on a log with a record, a stray line, a record of the future and
    a line never read. *)
Lemma report_lists_calls_of_lines_read_witness :
  let log := ["14:09:00 GET /api/a 200 0.050 0.045 512"; "-- rotated --";
              "14:13:30 GET /api/b 200 1 1 1"; "14:10:00 GET /api/c 200 1 1 1"] in
  let self := Sample.analyzer log ["/api"] 10 in
  let r := __call__ self Sample.wall 0 5 in
  _log (this r) = ["14:10:00 GET /api/c 200 1 1 1"]
  /\ exists consumed,
       _log self = consumed ++ _log (this r)
       /\ [Report.make_call "/api" "GET" 200 50 45 512]
          = omap (call_of (windowed self Sample.wall)) consumed.
Proof.
  intros log self r. split; [reflexivity|].
  apply (report_lists_calls_of_lines_read self Sample.wall 0 5
           (Report.make [Report.make_call "/api" "GET" 200 50 45 512] (Some 5))).
  reflexivity.
Defined.

(** X2 on the call of the record of 14:09:00. *)
Lemma forwarded_call_in_window_witness :
  let log := ["14:09:00 GET /api/a 200 0.050 0.045 512";
              "14:02:00 GET /api/b 200 1 1 1"] in
  let self := Sample.analyzer log ["/api"] 10 in
  let call := Report.make_call "/api" "GET" 200 50 45 512 in
  exists line e ts,
    In line (_log self) /\ matched self line e /\ stamped self e ts
    /\ replace_second_microsecond_0 Sample.wall - _max_age self * usec_per_minute
       <= ts <= replace_second_microsecond_0 Sample.wall
    /\ _monitor_path self (LogEntry.path e) = Some (Report.path call)
    /\ Report.verb call = LogEntry.verb e
    /\ py_int (LogEntry.status e) = Some (Report.status call)
    /\ py_float (LogEntry.request_time e) = Some (Report.time call)
    /\ py_float (LogEntry.upstream_response_time e)
       = Some (Report.upstream_time call)
    /\ py_int (LogEntry.body_bytes_sent e) = Some (Report.body_bytes call).
Proof.
  intros log self call.
  eapply (forwarded_call_in_window self Sample.wall 0 5).
  - reflexivity.
  - left. reflexivity.
Defined.

(** X3 on a log of four lines, one call and one line left unread. *)
Lemma calls_bounded_by_lines_read_witness :
  let log := ["14:09:00 GET /api/a 200 0.050 0.045 512"; "-- rotated --";
              "14:13:30 GET /api/b 200 1 1 1"; "14:10:00 GET /api/c 200 1 1 1"] in
  let self := Sample.analyzer log ["/api"] 10 in
  (length [Report.make_call "/api" "GET" 200 50 45 512]
   + length (_log (this (__call__ self Sample.wall 0%Z 5%Z)))
   <= length (_log self))%nat.
Proof.
  intros log self.
  apply (calls_bounded_by_lines_read self Sample.wall 0 5
           (Report.make [Report.make_call "/api" "GET" 200 50 45 512] (Some 5))).
  reflexivity.
Defined.

(** X4 with [max_age = -1] on records around the clock. *)
Lemma negative_age_forwards_nothing_witness :
  let log := ["14:13:00 GET /a 200 1 1 1"; "14:13:30 GET /b 200 1 1 1"] in
  let r := __call__ (Sample.analyzer log [] (-1)) Sample.wall 0 5 in
  exists report, aggregator r = Some report /\ Report.calls report = [].
Proof.
  intros log r. exists (Report.make [] (Some 5)).
  split; [reflexivity|].
  apply (negative_age_forwards_nothing (Sample.analyzer log [] (-1))
           Sample.wall 0 5).
  - reflexivity.
  - reflexivity.
Defined.

(** X5 on a log whose second record has no request time. *)
Lemma call_raises_overflow_or_value_witness :
  let log := ["14:09:00 GET /a 200 1 1 1"; "14:10:00 GET /b 200 - 1 1"] in
  let r := __call__ (Sample.analyzer log [] 10) Sample.wall 0 5 in
  (@ValueError Empty_set = OverflowError
   /\ aggregator r = None /\ _log (this r) = log)
  \/ (@ValueError Empty_set = ValueError
      /\ exists report,
           aggregator r = Some report /\ Report.execution_time report = None).
Proof.
  intros log r.
  apply (call_raises_overflow_or_value (Sample.analyzer log [] 10)
           Sample.wall 0 5 ValueError).
  reflexivity.
Defined.

(** X7 on an empty log. *)
Lemma empty_log_empty_report_witness :
  let r := __call__ (Sample.analyzer [] ["/api"] 10) Sample.wall 2 5 in
  returned r = Ok (Report.make [] (Some 3))
  /\ aggregator r = Some (Report.make [] (Some 3))
  /\ _log (this r) = [].
Proof.
  intros r.
  apply (empty_log_empty_report (Sample.analyzer [] ["/api"] 10) Sample.wall 2 5);
    reflexivity.
Defined.

(** X8: the record of 14:13:30 stops a first invocation at 14:13:27.5; a
    second one at 14:20:00 starts behind it and reports the record of
    14:14:00 only. *)
Lemma later_invocation_reads_the_rest_witness :
  let log := ["14:09:00 GET /a 200 1 1 1"; "14:13:30 GET /b 200 1 1 1";
              "14:14:00 GET /c 200 1 1 1"] in
  let self := Sample.analyzer log [] 10 in
  let first := __call__ self Sample.wall 0 5 in
  let call := Report.make_call "/c" "GET" 200 1000 1000 1 in
  _log (this first) = ["14:14:00 GET /c 200 1 1 1"]
  /\ (exists consumed, _log self = consumed ++ _log (this first))
  /\ (In call [call] ->
      exists line,
        In line (_log (this first))
        /\ call_of (windowed (this first) (Sample.at_time 14 20 0)) line
           = Some call)
  /\ (_log (this first) = [] -> [call] = []).
Proof.
  intros log self first call. split; [reflexivity|].
  apply (later_invocation_reads_the_rest self Sample.wall
           (Sample.at_time 14 20 0) 0 5 0 5 (Report.make [call] (Some 5)) call).
  reflexivity.
Defined.

(** X10 at [/a], [/ab] and the path [/ab/x]. *)
Lemma monitor_path_prefix_fixpoint_witness :
  let self := Sample.analyzer [] ["/a"; "/ab"] 10 in
  String.prefix "/a" "/ab/x" = true /\ _monitor_path self "/a" = Some "/a".
Proof.
  intros self. apply (monitor_path_prefix_fixpoint self "/ab/x" "/a").
  reflexivity.
Defined.

(** X11 at [/a], [/ab]: no path is monitored as [/ab]. *)
Lemma shadowed_entry_unreachable_witness :
  let self := Sample.analyzer [] ["/a"; "/ab"] 10 in
  _monitor_path self "/ab/x" <> Some "/ab"
  /\ _monitor_path self "/ab" <> Some "/ab".
Proof.
  intros self.
  assert (forall path, _monitor_path self path <> Some "/ab") as Hnever.
  { apply (shadowed_entry_unreachable self ["/a"] [] "/a" "/ab").
    - reflexivity.
    - simpl. intros [Heq|[]]. discriminate.
    - left. reflexivity.
    - reflexivity. }
  split; apply Hnever.
Defined.

(** X12 with the registered format [sample]. *)
Lemma init_resolves_format_witness :
  let self := Sample.analyzer ["a line"] ["/api"] 7 in
  (all_formats !! "sample" = Some (_format self)
   \/ (all_formats !! "sample" = None
       /\ LogFormat_init "custom" (re_escape "sample") = Ok (_format self)))
  /\ _pathconf self = ["/api"] /\ _max_age self = 7
  /\ execution_time self = None
  /\ _now self = None /\ _min_time self = None.
Proof.
  intros self.
  destruct (init_resolves_format ["a line"] "sample" ["/api"] 7) as (_ & Hok).
  - discriminate.
  - apply Hok. reflexivity.
Defined.

End CoverageExamples.
